(** * A shallow embedding of draw_simplex.py

    The script reads a line-oriented text file of simplices
    ([read_simplex]), prints the records, and hands them to a plotly
    heatmap call ([draw_simplex]); [main] chains the two.

    The model follows Python 3: a file opened with [open(path, 'r')]
    is read in universal-newline mode, [f.readline()] and [for line in f]
    share one cursor, and [float(s)] accepts CPython's float syntax.
    Exceptions are a sum in the result; printed output and the plotly
    call are events appended to the world's output log. *)

From Stdlib Require Import Ascii String ZArith NArith.
From stdpp Require Import base gmap strings list.

Open Scope string_scope.

Module DrawSimplex.

(* ------------------------------------------------------------------ *)
(** ** Python's [float(s)] on a [str] *)

(** A float value as the decimal literal denotes it: [mant * 10 ^ exp10]
    with its sign, or an infinity or a NaN.  Rounding to binary64 is not
    modelled: the claims only use whether a conversion succeeds. *)
Inductive pyfloat :=
| PFinite (neg : bool) (mant : N) (exp10 : Z)
| PInf (neg : bool)
| PNaN (neg : bool).

(** [Py_ISSPACE]: space, \t, \n, \v, \f, \r. *)
Definition py_isspace (c : ascii) : bool :=
  match nat_of_ascii c with
  | 32 | 9 | 10 | 11 | 12 | 13 => true
  | _ => false
  end.

Definition is_digit (c : ascii) : bool :=
  (48 <=? nat_of_ascii c)%nat && (nat_of_ascii c <=? 57)%nat.

Definition to_lower (c : ascii) : ascii :=
  let n := nat_of_ascii c in
  if (65 <=? n)%nat && (n <=? 90)%nat then ascii_of_nat (n + 32) else c.

(** [_Py_string_to_number_with_underscores]: an underscore must follow a
    digit and precede a digit; the underscores are removed.  (Its fast
    path for strings without '_' gives the same result.) *)
Fixpoint drop_underscores (prev : ascii) (s : list ascii) : option (list ascii) :=
  match s with
  | [] => if Ascii.eqb prev "_" then None else Some []
  | c :: t =>
      if Ascii.eqb c "_" then
        if is_digit prev then drop_underscores c t else None
      else if Ascii.eqb prev "_" && negb (is_digit c) then None
      else (fun r => c :: r) <$> drop_underscores c t
  end.

Fixpoint lstrip (s : list ascii) : list ascii :=
  match s with
  | c :: t => if py_isspace c then lstrip t else s
  | [] => []
  end.

Definition rstrip (s : list ascii) : list ascii := rev (lstrip (rev s)).

Fixpoint span_digits (s : list ascii) : list ascii * list ascii :=
  match s with
  | c :: t =>
      if is_digit c then let '(ds, r) := span_digits t in (c :: ds, r)
      else ([], s)
  | [] => ([], [])
  end.

Definition digits_value (ds : list ascii) : N :=
  fold_left (fun acc c => acc * 10 + N.of_nat (nat_of_ascii c - 48))%N ds 0%N.

Definition parse_sign (s : list ascii) : bool * list ascii :=
  match s with
  | c :: t =>
      if Ascii.eqb c "-" then (true, t)
      else if Ascii.eqb c "+" then (false, t) else (false, s)
  | [] => (false, [])
  end.

(** The exponent part of [_Py_dg_strtod]: an 'e' not followed by digits
    is not consumed. *)
Definition parse_exponent (s : list ascii) : Z * list ascii :=
  match s with
  | c :: t =>
      if Ascii.eqb c "e" || Ascii.eqb c "E" then
        let '(eneg, t1) := parse_sign t in
        let '(ds, t2) := span_digits t1 in
        match ds with
        | [] => (0%Z, s)
        | _ => ((if eneg then Z.opp else id) (Z.of_N (digits_value ds)), t2)
        end
      else (0%Z, s)
  | [] => (0%Z, [])
  end.

(** [_Py_dg_strtod]: sign, digits, optional '.' and digits (at least one
    digit in all), optional exponent.  [None] is "nothing parsed". *)
Definition dg_strtod (s : list ascii) : option (pyfloat * list ascii) :=
  let '(neg, s1) := parse_sign s in
  let '(ip, s2) := span_digits s1 in
  let '(fp, s3) :=
    match s2 with
    | c :: t => if Ascii.eqb c "." then span_digits t else ([], s2)
    | [] => ([], [])
    end in
  match (ip ++ fp)%list with
  | [] => None
  | ds =>
      let '(e, s4) := parse_exponent s3 in
      Some (PFinite neg (digits_value ds) (e - Z.of_nat (length fp))%Z, s4)
  end.

(** Case-insensitive prefix match against a lower-case pattern. *)
Fixpoint ci_prefix (pat s : list ascii) : option (list ascii) :=
  match pat, s with
  | [], _ => Some s
  | p :: pt, c :: t => if Ascii.eqb (to_lower c) p then ci_prefix pt t else None
  | _ :: _, [] => None
  end.

(** [_Py_parse_inf_or_nan]. *)
Definition parse_inf_or_nan (s : list ascii) : option (pyfloat * list ascii) :=
  let '(neg, s1) := parse_sign s in
  match ci_prefix (list_ascii_of_string "inf") s1 with
  | Some r =>
      Some (PInf neg,
            match ci_prefix (list_ascii_of_string "inity") r with
            | Some r' => r'
            | None => r
            end)
  | None =>
      match ci_prefix (list_ascii_of_string "nan") s1 with
      | Some r => Some (PNaN neg, r)
      | None => None
      end
  end.

(** [_PyOS_ascii_strtod]: the decimal syntax first, then inf/nan. *)
Definition ascii_strtod (s : list ascii) : option (pyfloat * list ascii) :=
  match dg_strtod s with
  | Some r => Some r
  | None => parse_inf_or_nan s
  end.

(** [_PyUnicode_TransformDecimalAndSpaceToASCII]: a character below 127
    is kept, a Unicode white space becomes ' ', a Unicode decimal digit
    becomes its ASCII digit, and any other character is replaced by '?'
    where the result is cut off.  A character of a [string] here is a
    code point below 256; of those, only U+0085 and U+00A0 are white
    space, and none is a decimal digit outside '0'..'9'. *)
Fixpoint transform_decimal_and_space (s : list ascii) : list ascii :=
  match s with
  | [] => []
  | c :: t =>
      let n := nat_of_ascii c in
      if (n <? 127)%nat then c :: transform_decimal_and_space t
      else if (n =? 133)%nat || (n =? 160)%nat then " "%char :: transform_decimal_and_space t
      else ["?"%char]
  end.

(** [PyFloat_FromString]: map Unicode spaces and digits to ASCII, remove
    underscores, strip white space, and require the whole rest to be one
    float literal. *)
Definition py_float (s : string) : option pyfloat :=
  match drop_underscores "000" (transform_decimal_and_space (list_ascii_of_string s)) with
  | None => None
  | Some s' =>
      match ascii_strtod (rstrip (lstrip s')) with
      | Some (v, []) => Some v
      | _ => None
      end
  end.

(* ------------------------------------------------------------------ *)
(** ** Python strings and text files *)

(** [str.split(',')]: the first field and the remaining ones. *)
Fixpoint split_comma_aux (s : string) : string * list string :=
  match s with
  | EmptyString => (EmptyString, [])
  | String c t =>
      let '(fld, rest) := split_comma_aux t in
      if Ascii.eqb c "," then (EmptyString, fld :: rest)
      else (String c fld, rest)
  end.

Definition split_comma (s : string) : list string :=
  let '(fld, rest) := split_comma_aux s in fld :: rest.

(** Universal newlines ([newline=None]): "\r\n" and "\r" read as "\n". *)
Fixpoint universal_newlines (s : string) : string :=
  match s with
  | EmptyString => EmptyString
  | String c t =>
      if Ascii.eqb c "013" then
        match t with
        | String c' t' =>
            if Ascii.eqb c' "010" then String "010" (universal_newlines t')
            else String "010" (universal_newlines t)
        | EmptyString => String "010" EmptyString
        end
      else String c (universal_newlines t)
  end.

(** The lines a text file yields, each with its "\n" (the last one may
    lack it). *)
Fixpoint py_lines (s : string) : list string :=
  match s with
  | EmptyString => []
  | String c t =>
      if Ascii.eqb c "010" then String c EmptyString :: py_lines t
      else
        match py_lines t with
        | [] => [String c EmptyString]
        | l :: ls => String c l :: ls
        end
  end.

(* ------------------------------------------------------------------ *)
(** ** The world: files, printed output and the plotly call *)

(** [go.Heatmap(x=x, y=y, z=z)]: a trace object built from three lists. *)
Record heatmap := Heatmap { hm_x : list pyfloat; hm_y : list pyfloat; hm_z : list pyfloat }.

Inductive event :=
| EvPrintBool (b : bool)                        (* print(line in set([...])) *)
| EvPrintNums (nums : list pyfloat)             (* print('nums are {}'.format(nums)) *)
| EvPrintPoints (points : list (list pyfloat))  (* print(points) *)
| EvPrintXYZ (x y z : list pyfloat)             (* print("X: {0}\n Y: {1}\n Z: {2}\n"...) *)
| EvIPlot (data : list heatmap) (filename : string).  (* py.iplot(data, filename=...) *)

Inductive exn :=
| FileNotFoundError (path : string)   (* open() of a missing file *)
| ValueErrorFloat (s : string)        (* float(s): could not convert string to float *)
| ValueErrorUnpack (got : nat).       (* (x, _, _) = p with len(p) <> 3 *)

Record world := World { fs : gmap string string; stdout : list event }.

(** Python code in a state-and-exception monad: an exception keeps the
    effects that happened before it. *)
Definition PyM (A : Type) : Type := world -> (exn + A) * world.

Definition ret {A} (a : A) : PyM A := fun w => (inr a, w).

Definition bind {A B} (m : PyM A) (k : A -> PyM B) : PyM B :=
  fun w =>
    match m w with
    | (inl e, w') => (inl e, w')
    | (inr a, w') => k a w'
    end.

(** stdpp's [x ← m; k] and [m ;; k] notations for [bind]. *)
Global Instance pym_bind : MBind PyM := fun A B k m => bind m k.

Definition lift {A} (r : exn + A) : PyM A := fun w => (r, w).

Definition print (ev : event) : PyM unit :=
  fun w => (inr tt, World (fs w) (stdout w ++ [ev])).

(** [py.iplot(data, filename=...)]: one call into the plotting library,
    recorded when it is made; what the library does with it (and whether
    it fails there) is not modelled. *)
Definition iplot (data : list heatmap) (filename : string) : PyM unit :=
  print (EvIPlot data filename).

(** [open(filepath, 'r')]: the lines the file object will yield.  The
    file system holds the decoded text of readable regular files; the
    other failures of [open()] (a directory, no permission) and of
    decoding are not modelled, only a missing file. *)
Definition open_read (path : string) : PyM (list string) :=
  fun w =>
    match fs w !! path with
    | None => (inl (FileNotFoundError path), w)
    | Some contents => (inr (py_lines (universal_newlines contents)), w)
    end.

(* ------------------------------------------------------------------ *)
(** ** read_simplex *)

Definition NL : string := String "010" EmptyString.

(** The sentinel lines ['Simplex\n'] and ['End\n']. *)
Definition simplex_line : string := "Simplex" ++ NL.
Definition end_line : string := "End" ++ NL.

(** The file object is the list of lines it has not yielded yet; both
    [f.readline()] and [for line in f] take from its front. *)
Definition readline (f : list string) : string * list string :=
  match f with
  | [] => (EmptyString, [])
  | l :: f' => (l, f')
  end.

(** [line in ['', 'Simplex\n']] (the same test as the printed
    [line in set(['', 'Simplex\n'])]). *)
Definition is_start (line : string) : bool :=
  String.eqb line "" || String.eqb line simplex_line.

(** [for line in f: print(...); if line in ['', 'Simplex\n']: break] *)
Fixpoint skip_to_simplex (f : list string) : PyM (list string) :=
  match f with
  | [] => ret []
  | line :: f' =>
      print (EvPrintBool (is_start line)) ;;
      if is_start line then ret f' else skip_to_simplex f'
  end.

(** [[float(val) for val in vals]]: the first failing field raises. *)
Fixpoint floats (vals : list string) : exn + list pyfloat :=
  match vals with
  | [] => inr []
  | v :: vs =>
      match py_float v with
      | None => inl (ValueErrorFloat v)
      | Some x =>
          match floats vs with
          | inl e => inl e
          | inr xs => inr (x :: xs)
          end
      end
  end.

(** [for line in f: if line == 'End\n': break; vals = line.split(',');
    nums = [...]; print(...); points.append(nums)] *)
Fixpoint read_points (f : list string) (points : list (list pyfloat))
  : PyM (list string * list (list pyfloat)) :=
  match f with
  | [] => ret ([], points)
  | line :: f' =>
      if String.eqb line end_line then ret (f', points)
      else
        nums ← lift (floats (split_comma line));
        print (EvPrintNums nums) ;;
        read_points f' (points ++ [nums])
  end.

(** [while f.readline() != '': ...].  Every round reads at least one
    line, so [S (length f)] rounds always suffice
    ([scan_fuel_enough] below). *)
Fixpoint scan (fuel : nat) (f : list string) (points : list (list pyfloat))
  : PyM (list (list pyfloat)) :=
  match fuel with
  | O => ret points
  | S fuel' =>
      let '(l, f1) := readline f in
      if String.eqb l "" then ret points
      else
        f2 ← skip_to_simplex f1;
        r ← read_points f2 points;
        scan fuel' (fst r) (snd r)
  end.

Definition read_simplex (filepath : string) : PyM (list (list pyfloat)) :=
  f ← open_read filepath;
  scan (S (length f)) f [].

(* ------------------------------------------------------------------ *)
(** ** draw_simplex and main *)

(** [[sel(t) for (x, y, z) in points]]: unpacking a record that is not a
    triple raises. *)
Fixpoint unpack_each (sel : pyfloat * pyfloat * pyfloat -> pyfloat)
  (points : list (list pyfloat)) : exn + list pyfloat :=
  match points with
  | [] => inr []
  | p :: ps =>
      match p with
      | [a; b; c] =>
          match unpack_each sel ps with
          | inl e => inl e
          | inr r => inr (sel (a, b, c) :: r)
          end
      | _ => inl (ValueErrorUnpack (length p))
      end
  end.

Definition draw_simplex (points : list (list pyfloat)) : PyM unit :=
  x ← lift (unpack_each (fun '(x, _, _) => x) points);
  y ← lift (unpack_each (fun '(_, y, _) => y) points);
  z ← lift (unpack_each (fun '(_, _, z) => z) points);
  print (EvPrintXYZ x y z) ;;
  let trace := Heatmap x y z in
  let data := [trace] in
  iplot data "basic-heatmap".

Definition main : PyM unit :=
  points ← read_simplex "simplex.txt";
  print (EvPrintPoints points) ;;
  draw_simplex points.

(** A world holding one file and no output yet. *)
Definition file_world (path contents : string) : world :=
  World {[ path := contents ]} [].

(** A line that [read_points] turns into the record [p]. *)
Definition parsed (line : string) (p : list pyfloat) : Prop :=
  floats (split_comma line) = inr p.

(** A file of one simplex, preceded by an empty line, as a sample input. *)
Definition sample_text : string :=
  NL ++ "Simplex" ++ NL ++ "1,2,3" ++ NL ++ "4,5,6" ++ NL ++ "End" ++ NL.

(** A file that starts with its only simplex (data line "1,2,3"). *)
Definition leading_simplex_text : string :=
  "Simplex" ++ NL ++ "1,2,3" ++ NL ++ "End" ++ NL.

(** The same with a data line that is not a number. *)
Definition leading_bad_simplex_text : string :=
  "Simplex" ++ NL ++ "abc" ++ NL ++ "End" ++ NL.

(** A simplex that no 'End' line closes. *)
Definition unterminated_text : string :=
  "x" ++ NL ++ "Simplex" ++ NL ++ "1" ++ NL.

Definition sample_points : list (list pyfloat) :=
  [[PFinite false 1 0; PFinite false 2 0; PFinite false 3 0];
   [PFinite false 4 0; PFinite false 5 0; PFinite false 6 0]].

Open Scope list_scope.

(* ------------------------------------------------------------------ *)
(** ** Basic facts *)

Ltac unfold_monad :=
  unfold mbind, pym_bind, bind, print, lift, ret, iplot in *.

Lemma py_lines_nonempty (s : string) : Forall (fun l => l <> "") (py_lines s).
Proof.
  induction s as [|c t IH]; simpl; [constructor|].
  destruct (Ascii.eqb c "010").
  - constructor; [discriminate | exact IH].
  - destruct (py_lines t) as [|l ls]; constructor; try discriminate.
    + constructor.
    + by inversion IH.
Qed.

Lemma is_start_simplex (l : string) :
  l <> "" -> is_start l = true -> l = simplex_line.
Proof.
  unfold is_start. intros Hne [H | H]%orb_true_iff; apply String.eqb_eq in H.
  - contradiction.
  - exact H.
Qed.

Lemma floats_spec (vals : list string) (xs : list pyfloat) :
  floats vals = inr xs -> Forall2 (fun v x => py_float v = Some x) vals xs.
Proof.
  revert xs. induction vals as [|v vs IH]; intros xs H; simpl in H.
  - injection H as <-. constructor.
  - destruct (py_float v) eqn:Hv; [|discriminate].
    destruct (floats vs) eqn:Hvs; [discriminate|].
    injection H as <-. constructor; auto.
Qed.

Lemma parsed_not_sentinel (l : string) (p : list pyfloat) :
  parsed l p -> l <> simplex_line /\ l <> end_line.
Proof. unfold parsed. split; intros ->; vm_compute in H; discriminate. Qed.

Lemma Forall2_elem_split {A B} (R : A -> B -> Prop) (xs : list A) (ys : list B) (y : B) :
  Forall2 R xs ys -> y ∈ ys -> exists b x c, xs = b ++ x :: c /\ R x y.
Proof.
  induction 1 as [|x y' xs ys Hxy HR IH]; intros Hin.
  - by apply elem_of_nil in Hin.
  - apply elem_of_cons in Hin as [-> | Hin].
    + exists [], x, xs. auto.
    + destruct (IH Hin) as (b & x' & c & -> & Hx').
      exists (x :: b), x', c. auto.
Qed.

Lemma skip_to_simplex_inv (f f' : list string) (w w' : world) :
  Forall (fun l => l <> "") f ->
  skip_to_simplex f w = (inr f', w') ->
  f' = [] \/ exists a, f = a ++ simplex_line :: f'.
Proof.
  revert w. induction f as [|l f IH]; intros w Hne H; simpl in H; unfold_monad.
  - injection H as <- _. auto.
  - inversion Hne as [|? ? Hl Hf]; subst.
    destruct (is_start l) eqn:Hs.
    + injection H as <- _. right. exists []. simpl.
      by rewrite (is_start_simplex l Hl Hs).
    + destruct (IH _ Hf H) as [-> | [a ->]]; [auto|].
      right. by exists (l :: a).
Qed.

Lemma read_points_inv (f f' : list string) (pts0 pts1 : list (list pyfloat)) (w w' : world) :
  read_points f pts0 w = (inr (f', pts1), w') ->
  exists ds d, pts1 = pts0 ++ d /\ Forall2 parsed ds d /\ (end_line ∉ ds) /\
    (f = ds ++ end_line :: f' \/ (f = ds /\ f' = [])).
Proof.
  revert pts0 w. induction f as [|l f IH]; intros pts0 w H; simpl in H; unfold_monad.
  - injection H as <- <- _. exists [], []. rewrite app_nil_r.
    repeat split; auto. by apply not_elem_of_nil.
  - destruct (String.eqb l end_line) eqn:He.
    + apply String.eqb_eq in He as ->. injection H as <- <- _.
      exists [], []. rewrite app_nil_r. repeat split; auto. by apply not_elem_of_nil.
    + destruct (floats (split_comma l)) as [e|nums] eqn:Hn; [discriminate|].
      destruct (IH _ _ H) as (ds & d & -> & Hds & Hend & Hf).
      exists (l :: ds), (nums :: d). rewrite <- app_assoc.
      split; [done|]. split; [by constructor|]. split.
      * apply not_elem_of_cons. split; auto.
        intros Heq. rewrite Heq, String.eqb_refl in He. discriminate.
      * destruct Hf as [-> | [-> ->]]; auto.
Qed.

Lemma parsed_forall_not_simplex (ds : list string) (d : list (list pyfloat)) :
  Forall2 parsed ds d -> simplex_line ∉ ds.
Proof.
  induction 1 as [|l p ds d Hp _ IH]; [apply not_elem_of_nil|].
  apply not_elem_of_cons. split; [|exact IH].
  intros Heq. destruct (parsed_not_sentinel l p Hp) as [Hs _]. congruence.
Qed.

Lemma scan_nil (n : nat) (pts : list (list pyfloat)) (w : world) :
  scan n [] pts w = (inr pts, w).
Proof. by destruct n. Qed.

(** *** Every round of the [while] loop consumes lines *)

Lemma skip_to_simplex_length (f f' : list string) (w w' : world) :
  skip_to_simplex f w = (inr f', w') -> length f' <= length f.
Proof.
  revert w. induction f as [|l f IH]; intros w H; simpl in H; unfold_monad.
  - injection H as <- _. done.
  - destruct (is_start l).
    + injection H as <- _. simpl. lia.
    + apply IH in H. simpl. lia.
Qed.

Lemma read_points_length (f f' : list string) (pts0 pts1 : list (list pyfloat)) (w w' : world) :
  read_points f pts0 w = (inr (f', pts1), w') -> length f' <= length f.
Proof.
  intros H. apply read_points_inv in H as (ds & d & _ & _ & _ & [-> | [-> ->]]).
  - rewrite length_app. simpl. lia.
  - simpl. lia.
Qed.

(** [S (length f)] rounds of [scan] are as good as any larger number:
    the fuel never runs out before the file does. *)
Lemma scan_fuel_enough (n m : nat) (f : list string) (pts : list (list pyfloat)) (w : world) :
  length f < n -> length f < m -> scan n f pts w = scan m f pts w.
Proof.
  revert m f pts w.
  induction n as [|n IH]; intros [|m] f pts w Hn Hm; try lia.
  destruct f as [|x f1]; [done|]. simpl.
  destruct (String.eqb x ""); [done|]. unfold_monad.
  destruct (skip_to_simplex f1 w) as [[e|f2] w1] eqn:Hs; [done|].
  destruct (read_points f2 pts w1) as [[e|[f3 pts']] w2] eqn:Hr; [done|].
  apply skip_to_simplex_length in Hs. apply read_points_length in Hr.
  simpl in Hn, Hm. apply IH; simpl; lia.
Qed.

(** *** What the records come from *)

(** [good lines d]: the records [d] are the parses of lines of [lines]
    taken in file order, and each of them comes from a line after a
    'Simplex' line with no sentinel line in between. *)
Definition good (lines : list string) (d : list (list pyfloat)) : Prop :=
  (exists sel, sel `sublist_of` lines /\ Forall2 parsed sel d) /\
  (forall p, p ∈ d -> exists a b l c,
      lines = a ++ simplex_line :: b ++ l :: c /\
      (end_line ∉ b) /\ (simplex_line ∉ b) /\ parsed l p).

Lemma good_nil (lines : list string) : good lines [].
Proof.
  split.
  - exists []. split; [apply sublist_nil_l | constructor].
  - intros p Hp. by apply elem_of_nil in Hp.
Qed.

Lemma good_block (pre ds r0 f3 : list string) (d d' : list (list pyfloat)) :
  Forall2 parsed ds d -> end_line ∉ ds -> good f3 d' ->
  good (pre ++ simplex_line :: ds ++ r0 ++ f3) (d ++ d').
Proof.
  intros Hds Hend [[sel' [Hsub Hsel']] Hrec]. split.
  - exists (ds ++ sel'). split; [|by apply Forall2_app].
    replace (pre ++ simplex_line :: ds ++ r0 ++ f3)
      with ((pre ++ [simplex_line]) ++ ds ++ r0 ++ f3) by (rewrite <- app_assoc; done).
    apply sublist_inserts_l, sublist_app; [done|].
    by apply sublist_inserts_l.
  - intros p [Hp | Hp]%elem_of_app.
    + destruct (Forall2_elem_split _ _ _ _ Hds Hp) as (b & l & c & -> & Hl).
      exists pre, b, l, (c ++ r0 ++ f3).
      apply not_elem_of_app in Hend as [Hb _].
      pose proof (parsed_forall_not_simplex _ _ Hds) as Hs.
      apply not_elem_of_app in Hs as [Hs _].
      split; [by rewrite <- app_assoc|]. split; [exact Hb | split; [exact Hs | exact Hl]].
    + destruct (Hrec p Hp) as (a & b & l & c & -> & Hb).
      exists (pre ++ simplex_line :: ds ++ r0 ++ a), b, l, c.
      split; [|exact Hb]. rewrite <- !app_assoc. simpl. by rewrite <- !app_assoc.
Qed.

Lemma scan_inv (n : nat) (f : list string) (pts0 pts : list (list pyfloat)) (w w' : world) :
  Forall (fun l => l <> "") f ->
  scan n f pts0 w = (inr pts, w') ->
  exists d, pts = pts0 ++ d /\ good f d.
Proof.
  revert f pts0 w. induction n as [|n IH]; intros f pts0 w Hne H.
  - injection H as <- _. exists []. rewrite app_nil_r. split; [done|apply good_nil].
  - destruct f as [|x f1].
    { injection H as <- _. exists []. rewrite app_nil_r. split; [done|apply good_nil]. }
    simpl in H. destruct (String.eqb x "").
    { injection H as <- _. exists []. rewrite app_nil_r. split; [done|apply good_nil]. }
    unfold_monad.
    destruct (skip_to_simplex f1 w) as [[e|f2] w1] eqn:Hs; [discriminate|].
    destruct (read_points f2 pts0 w1) as [[e|[f3 pts']] w2] eqn:Hr; [discriminate|].
    simpl in H. inversion Hne as [|? ? _ Hne1]; subst.
    apply (skip_to_simplex_inv _ _ _ _ Hne1) in Hs as [-> | [a ->]].
    + simpl in Hr. injection Hr as <- <- _.
      rewrite scan_nil in H. injection H as <- _.
      exists []. rewrite app_nil_r. split; [done|apply good_nil].
    + apply read_points_inv in Hr as (ds & d & -> & Hds & Hend & Hf).
      assert (exists r0, f2 = ds ++ r0 ++ f3) as [r0 ->].
      { destruct Hf as [-> | [-> ->]];
          [by exists [end_line] | exists []; by rewrite !app_nil_r]. }
      assert (Hne3 : Forall (fun l => l <> "") f3).
      { apply Forall_app in Hne1 as [_ Hne1]. inversion Hne1 as [|? ? _ Hne2]; subst.
        apply Forall_app in Hne2 as [_ Hne2]. by apply Forall_app in Hne2 as [_ ?]. }
      destruct (IH _ _ _ Hne3 H) as (d' & -> & Hgood).
      exists (d ++ d'). rewrite <- app_assoc. split; [done|].
      apply (good_block (x :: a)); done.
Qed.

(** *** Files are only read *)

Definition keeps_fs {A} (m : PyM A) : Prop := forall w, fs (snd (m w)) = fs w.

Create HintDb keeps.

Lemma keeps_ret {A} (a : A) : keeps_fs (ret a).
Proof. done. Qed.

Lemma keeps_lift {A} (r : exn + A) : keeps_fs (lift r).
Proof. done. Qed.

Lemma keeps_print (ev : event) : keeps_fs (print ev).
Proof. done. Qed.

Lemma keeps_iplot (data : list heatmap) (filename : string) : keeps_fs (iplot data filename).
Proof. done. Qed.

Lemma keeps_open_read (path : string) : keeps_fs (open_read path).
Proof. intros w. unfold open_read. by destruct (fs w !! path). Qed.

Lemma keeps_bind {A B} (m : PyM A) (k : A -> PyM B) :
  keeps_fs m -> (forall a, keeps_fs (k a)) -> keeps_fs (x ← m; k x).
Proof.
  intros Hm Hk w. unfold_monad. specialize (Hm w).
  destruct (m w) as [[e|a] w'] eqn:E; simpl in *; [done|].
  by rewrite Hk.
Qed.

#[local] Hint Resolve keeps_ret keeps_lift keeps_print keeps_iplot keeps_open_read keeps_bind : keeps.

Lemma keeps_skip_to_simplex (f : list string) : keeps_fs (skip_to_simplex f).
Proof.
  induction f as [|l f IH]; simpl; auto with keeps.
  apply keeps_bind; [auto with keeps|]. intros _. destruct (is_start l); auto with keeps.
Qed.

Lemma keeps_read_points (f : list string) (pts : list (list pyfloat)) :
  keeps_fs (read_points f pts).
Proof.
  revert pts. induction f as [|l f IH]; intros pts; simpl; auto with keeps.
  destruct (String.eqb l end_line); auto with keeps.
Qed.

#[local] Hint Resolve keeps_skip_to_simplex keeps_read_points : keeps.

Lemma keeps_scan (n : nat) (f : list string) (pts : list (list pyfloat)) :
  keeps_fs (scan n f pts).
Proof.
  revert f pts. induction n as [|n IH]; intros f pts; simpl; auto with keeps.
  destruct (readline f) as [l f1]. destruct (String.eqb l ""); auto with keeps.
Qed.

#[local] Hint Resolve keeps_scan : keeps.

Lemma keeps_read_simplex (path : string) : keeps_fs (read_simplex path).
Proof. unfold read_simplex. auto with keeps. Qed.

Lemma keeps_draw_simplex (pts : list (list pyfloat)) : keeps_fs (draw_simplex pts).
Proof. unfold draw_simplex. auto 10 with keeps. Qed.

(** *** Running [read_simplex] *)

Lemma read_simplex_good (path : string) (w : world) (c : string) (pts : list (list pyfloat)) :
  fs w !! path = Some c ->
  fst (read_simplex path w) = inr pts ->
  good (py_lines (universal_newlines c)) pts.
Proof.
  intros Hc H. unfold read_simplex, open_read in H. unfold_monad. rewrite Hc in H.
  destruct (scan _ _ [] w) as [r w'] eqn:Hs. simpl in H. subst r.
  apply scan_inv in Hs as (d & -> & Hg); [exact Hg|apply py_lines_nonempty].
Qed.

Lemma skip_to_simplex_no_start (f : list string) (w : world) :
  Forall (fun l => is_start l = false) f ->
  exists w', skip_to_simplex f w = (inr [], w').
Proof.
  revert w. induction f as [|l f IH]; intros w Hf; simpl; unfold_monad; [by eexists|].
  inversion Hf as [|? ? Hl Hf']; subst. rewrite Hl. by apply IH.
Qed.

(** *** Running [draw_simplex] *)

Lemma unpack_each_ok (sel : pyfloat * pyfloat * pyfloat -> pyfloat) (pts : list (list pyfloat)) :
  Forall (fun p => length p = 3) pts ->
  exists r, unpack_each sel pts = inr r /\
    Forall2 (fun p v => exists a b c, p = [a; b; c] /\ v = sel (a, b, c)) pts r.
Proof.
  induction 1 as [|p ps Hp _ IH]; simpl; [by exists []|].
  destruct IH as (r & Hr & Hall).
  destruct p as [|a [|b [|c [|? ?]]]]; try discriminate Hp.
  rewrite Hr. eexists. split; [done|]. constructor; [|done]. by exists a, b, c.
Qed.

Lemma unpack_each_bad (sel : pyfloat * pyfloat * pyfloat -> pyfloat)
  (pts : list (list pyfloat)) (p : list pyfloat) :
  p ∈ pts -> length p <> 3 ->
  exists n, n <> 3 /\ unpack_each sel pts = inl (ValueErrorUnpack n).
Proof.
  induction pts as [|q qs IH]; intros Hp Hlen; [by apply elem_of_nil in Hp|].
  simpl. destruct q as [|a [|b [|c [|d q]]]];
    try (eexists; split; [|reflexivity]; simpl; lia).
  apply elem_of_cons in Hp as [-> | Hp]; [done|].
  destruct (IH Hp Hlen) as (n & Hn & ->). by exists n.
Qed.

(* ------------------------------------------------------------------ *)
(** ** Properties of the script *)

Definition sample_world : world := file_world "simplex.txt" sample_text.

(** C1: a file whose first line is the 'Simplex' line of its only
    simplex yields no records: the [f.readline()] of the [while] test
    consumes that 'Simplex' line, and the [for] loop that looks for the
    next one runs past the data lines to the end of the file. *)
Theorem read_simplex_loses_leading_simplex (path : string) (w : world) (c : string)
  (body : list string) :
  fs w !! path = Some c ->
  py_lines (universal_newlines c) = simplex_line :: body ++ [end_line] ->
  simplex_line ∉ body ->
  fst (read_simplex path w) = inr [].
Proof.
  intros Hc Hl Hb. unfold read_simplex, open_read. unfold_monad. rewrite Hc. simpl.
  rewrite Hl. simpl.
  assert (Hne : Forall (fun l => l <> "") (body ++ [end_line])).
  { pose proof (py_lines_nonempty (universal_newlines c)) as Hne.
    rewrite Hl in Hne. by inversion Hne. }
  assert (Hst : Forall (fun l => is_start l = false) (body ++ [end_line])).
  { apply Forall_forall. intros l Hin.
    destruct (is_start l) eqn:Hs; [|done]. exfalso.
    apply (proj1 (Forall_forall _ _) Hne) in Hin as Hl0.
    apply is_start_simplex in Hs as ->; [|done].
    apply elem_of_app in Hin as [Hin | Hin%list_elem_of_singleton].
    - by apply Hb.
    - discriminate Hin. }
  unfold_monad. destruct (skip_to_simplex_no_start _ w Hst) as [w' ->]. done.
Qed.

Lemma read_simplex_loses_leading_simplex_witness :
  (fs (file_world "simplex.txt" leading_simplex_text) !! "simplex.txt"
     = Some leading_simplex_text /\
   py_lines (universal_newlines leading_simplex_text)
     = simplex_line :: ["1,2,3" +:+ NL] ++ [end_line] /\
   simplex_line ∉ ["1,2,3" +:+ NL]) /\
  fst (read_simplex "simplex.txt" (file_world "simplex.txt" leading_simplex_text)) = inr [].
Proof.
  split.
  - split; [reflexivity|]. split; [reflexivity|].
    apply not_elem_of_cons. split; [discriminate | apply not_elem_of_nil].
  - apply (read_simplex_loses_leading_simplex "simplex.txt"
             (file_world "simplex.txt" leading_simplex_text)
             leading_simplex_text ["1,2,3" +:+ NL]).
    + reflexivity.
    + reflexivity.
    + apply not_elem_of_cons. split; [discriminate | apply not_elem_of_nil].
Defined.

(** C2 (counterexample): a record can come from a line that no 'End'
    line follows: an unclosed simplex is read to the end of the file. *)
Lemma read_simplex_unterminated_simplex :
  fst (read_simplex "simplex.txt" (file_world "simplex.txt" unterminated_text))
    = inr [[PFinite false 1 0]] /\
  end_line ∉ py_lines (universal_newlines unterminated_text).
Proof.
  split; [vm_compute; reflexivity|].
  vm_compute. intros H.
  repeat (apply elem_of_cons in H as [H | H]; [discriminate H|]).
  by apply elem_of_nil in H.
Qed.

(** C2 (amended): every record comes from a line [l] that follows a
    'Simplex' line with no 'End' or 'Simplex' line in between, [l] is
    itself neither sentinel, and the record is the parse of [l]; the
    'End' line that closes the simplex, if there is one, comes after [l]. *)
Theorem read_simplex_records_after_simplex (path : string) (w : world) (c : string)
  (pts : list (list pyfloat)) :
  fs w !! path = Some c ->
  fst (read_simplex path w) = inr pts ->
  Forall (fun p => exists a b l rest,
            py_lines (universal_newlines c) = a ++ simplex_line :: b ++ l :: rest /\
            (end_line ∉ b) /\ (simplex_line ∉ b) /\
            l <> end_line /\ l <> simplex_line /\ parsed l p) pts.
Proof.
  intros Hc H. destruct (read_simplex_good _ _ _ _ Hc H) as [_ Hrec].
  apply Forall_forall. intros p Hp.
  destruct (Hrec p Hp) as (a & b & l & rest & Heq & Hb1 & Hb2 & Hl).
  destruct (parsed_not_sentinel l p Hl) as [Hs He].
  exists a, b, l, rest. auto 10.
Qed.

Lemma read_simplex_records_after_simplex_witness :
  (fs sample_world !! "simplex.txt" = Some sample_text /\
   fst (read_simplex "simplex.txt" sample_world) = inr sample_points) /\
  Forall (fun p => exists a b l rest,
            py_lines (universal_newlines sample_text) = a ++ simplex_line :: b ++ l :: rest /\
            (end_line ∉ b) /\ (simplex_line ∉ b) /\
            l <> end_line /\ l <> simplex_line /\ parsed l p) sample_points.
Proof.
  split; [split; vm_compute; reflexivity|].
  apply (read_simplex_records_after_simplex "simplex.txt" sample_world sample_text);
    vm_compute; reflexivity.
Defined.

(** C3: a data line that is not a number, inside a file that starts with
    its simplex, raises nothing: the line is never parsed. *)
Theorem read_simplex_accepts_bad_leading_simplex :
  fst (read_simplex "simplex.txt" (file_world "simplex.txt" leading_bad_simplex_text))
    = inr [].
Proof. vm_compute. reflexivity. Qed.

(** C4: every record is the list of the floats of the comma-separated
    fields of one line of the file, every field converted. *)
Theorem read_simplex_records_are_parsed_lines (path : string) (w : world) (c : string)
  (pts : list (list pyfloat)) :
  fs w !! path = Some c ->
  fst (read_simplex path w) = inr pts ->
  Forall (fun p => exists l, l ∈ py_lines (universal_newlines c) /\
            Forall2 (fun v x => py_float v = Some x) (split_comma l) p) pts.
Proof.
  intros Hc H. destruct (read_simplex_good _ _ _ _ Hc H) as [_ Hrec].
  apply Forall_forall. intros p Hp.
  destruct (Hrec p Hp) as (a & b & l & rest & -> & _ & _ & Hl).
  exists l. split.
  - apply elem_of_app. right. apply elem_of_cons. right.
    apply elem_of_app. right. apply elem_of_cons. by left.
  - by apply floats_spec.
Qed.

Lemma read_simplex_records_are_parsed_lines_witness :
  (fs sample_world !! "simplex.txt" = Some sample_text /\
   fst (read_simplex "simplex.txt" sample_world) = inr sample_points) /\
  Forall (fun p => exists l, l ∈ py_lines (universal_newlines sample_text) /\
            Forall2 (fun v x => py_float v = Some x) (split_comma l) p) sample_points.
Proof.
  split; [split; vm_compute; reflexivity|].
  apply (read_simplex_records_are_parsed_lines "simplex.txt" sample_world sample_text);
    vm_compute; reflexivity.
Defined.

(** C5: [main] reads 'simplex.txt', prints the records, and passes them
    unchanged to [draw_simplex]; an exception of [read_simplex] ends it. *)
Theorem main_reads_then_draws (w : world) :
  main w =
    match read_simplex "simplex.txt" w with
    | (inl e, w1) => (inl e, w1)
    | (inr pts, w1) => draw_simplex pts (World (fs w1) (stdout w1 ++ [EvPrintPoints pts]))
    end.
Proof.
  unfold main. unfold_monad.
  destruct (read_simplex "simplex.txt" w) as [[e|pts] w1]; reflexivity.
Qed.

(** C6 (counterexample): a record with four components makes
    [draw_simplex] raise before it prints or plots anything. *)
Lemma draw_simplex_rejects_four_components :
  draw_simplex [[PFinite false 1 0; PFinite false 2 0; PFinite false 3 0; PFinite false 4 0]]
    (World ∅ []) = (inl (ValueErrorUnpack 4), World ∅ []).
Proof. reflexivity. Qed.

Lemma draw_simplex_triples (pts : list (list pyfloat)) (w : world) :
  Forall (fun p => length p = 3) pts ->
  exists xs ys zs,
    Forall2 (fun p x => p !! 0 = Some x) pts xs /\
    Forall2 (fun p y => p !! 1 = Some y) pts ys /\
    Forall2 (fun p z => p !! 2 = Some z) pts zs /\
    draw_simplex pts w =
      (inr tt, World (fs w) (stdout w ++ [EvPrintXYZ xs ys zs;
                                          EvIPlot [Heatmap xs ys zs] "basic-heatmap"])).
Proof.
  intros H3.
  destruct (unpack_each_ok (fun '(x, _, _) => x) pts H3) as (xs & Hx & Fx).
  destruct (unpack_each_ok (fun '(_, y, _) => y) pts H3) as (ys & Hy & Fy).
  destruct (unpack_each_ok (fun '(_, _, z) => z) pts H3) as (zs & Hz & Fz).
  exists xs, ys, zs. split; [|split; [|split]].
  - eapply Forall2_impl; [exact Fx|]. intros p v (a & b & c & -> & ->). done.
  - eapply Forall2_impl; [exact Fy|]. intros p v (a & b & c & -> & ->). done.
  - eapply Forall2_impl; [exact Fz|]. intros p v (a & b & c & -> & ->). done.
  - unfold draw_simplex. unfold_monad. rewrite Hx, Hy, Hz. simpl.
    unfold print. simpl. by rewrite <- app_assoc.
Qed.

Lemma draw_simplex_not_triples (pts : list (list pyfloat)) (w : world) :
  ~ Forall (fun p => length p = 3) pts ->
  exists p n, p ∈ pts /\ length p <> 3 /\ n <> 3 /\
    draw_simplex pts w = (inl (ValueErrorUnpack n), w).
Proof.
  intros Hn. apply not_Forall_Exists in Hn; [|intros p; apply _].
  apply Exists_exists in Hn as (p & Hp & Hlen).
  destruct (unpack_each_bad (fun '(x, _, _) => x) pts p Hp Hlen) as (n & Hn & Hx).
  exists p, n. split; [done|]. split; [done|]. split; [done|].
  unfold draw_simplex. unfold_monad. by rewrite Hx.
Qed.

(** C6 (amended): when every record has exactly three components,
    [draw_simplex] prints the three lists and makes one [py.iplot] call
    with one heatmap whose x, y and z lists are the first, second and
    third components of the records, in record order; otherwise some
    record has another length and [draw_simplex] raises the unpacking
    error with nothing printed or plotted (the world is unchanged). *)
Theorem draw_simplex_one_heatmap (pts : list (list pyfloat)) (w : world) :
  (Forall (fun p => length p = 3) pts /\
   exists xs ys zs,
     Forall2 (fun p x => p !! 0 = Some x) pts xs /\
     Forall2 (fun p y => p !! 1 = Some y) pts ys /\
     Forall2 (fun p z => p !! 2 = Some z) pts zs /\
     draw_simplex pts w =
       (inr tt, World (fs w) (stdout w ++ [EvPrintXYZ xs ys zs;
                                           EvIPlot [Heatmap xs ys zs] "basic-heatmap"]))) \/
  (exists p n, p ∈ pts /\ length p <> 3 /\ n <> 3 /\
     draw_simplex pts w = (inl (ValueErrorUnpack n), w)).
Proof.
  destruct (decide (Forall (fun p => length p = 3) pts)) as [H3|H3].
  - left. split; [exact H3|]. by apply draw_simplex_triples.
  - right. by apply draw_simplex_not_triples.
Qed.

Lemma draw_simplex_one_heatmap_witness :
  Forall (fun p => length p = 3) sample_points /\
  exists xs ys zs,
    Forall2 (fun p x => p !! 0 = Some x) sample_points xs /\
    Forall2 (fun p y => p !! 1 = Some y) sample_points ys /\
    Forall2 (fun p z => p !! 2 = Some z) sample_points zs /\
    draw_simplex sample_points sample_world =
      (inr tt, World (fs sample_world)
                 (stdout sample_world ++ [EvPrintXYZ xs ys zs;
                                          EvIPlot [Heatmap xs ys zs] "basic-heatmap"])).
Proof.
  destruct (draw_simplex_one_heatmap sample_points sample_world)
    as [H | (p & n & Hp & Hlen & _)]; [exact H|].
  exfalso. apply Hlen. unfold sample_points in Hp.
  repeat (apply elem_of_cons in Hp as [->|Hp]; [reflexivity|]).
  by apply not_elem_of_nil in Hp.
Defined.

(** C7: neither [read_simplex] nor [main] changes any file. *)
Theorem read_simplex_keeps_files (path : string) (w : world) :
  fs (snd (read_simplex path w)) = fs w /\ fs (snd (main w)) = fs w.
Proof.
  split; [apply keeps_read_simplex|].
  unfold main. revert w.
  apply keeps_bind; [apply keeps_read_simplex|]. intros pts.
  apply keeps_bind; [apply keeps_print|]. intros _. apply keeps_draw_simplex.
Qed.

(** C8: an empty file gives no records, no output and no exception. *)
Theorem read_simplex_empty_file (path : string) (w : world) :
  fs w !! path = Some "" -> read_simplex path w = (inr [], w).
Proof. intros Hc. unfold read_simplex, open_read. unfold_monad. by rewrite Hc. Qed.

Lemma read_simplex_empty_file_witness :
  fs (file_world "simplex.txt" "") !! "simplex.txt" = Some "" /\
  read_simplex "simplex.txt" (file_world "simplex.txt" "")
    = (inr [], file_world "simplex.txt" "").
Proof.
  split; [reflexivity|]. apply read_simplex_empty_file. reflexivity.
Defined.

(** C9: the records are the parses of lines of the file taken in file
    order. *)
Theorem read_simplex_keeps_line_order (path : string) (w : world) (c : string)
  (pts : list (list pyfloat)) :
  fs w !! path = Some c ->
  fst (read_simplex path w) = inr pts ->
  exists sel, sel `sublist_of` py_lines (universal_newlines c) /\ Forall2 parsed sel pts.
Proof.
  intros Hc H. by destruct (read_simplex_good _ _ _ _ Hc H) as [Hsel _].
Qed.

Lemma read_simplex_keeps_line_order_witness :
  (fs sample_world !! "simplex.txt" = Some sample_text /\
   fst (read_simplex "simplex.txt" sample_world) = inr sample_points) /\
  exists sel, sel `sublist_of` py_lines (universal_newlines sample_text) /\
    Forall2 parsed sel sample_points.
Proof.
  split; [split; vm_compute; reflexivity|].
  apply (read_simplex_keeps_line_order "simplex.txt" sample_world sample_text);
    vm_compute; reflexivity.
Defined.

(** C10: one record whose length is not 3 makes [draw_simplex] raise the
    unpacking error, with nothing printed or plotted. *)
Theorem draw_simplex_needs_triples (pts : list (list pyfloat)) (p : list pyfloat) (w : world) :
  p ∈ pts -> length p <> 3 ->
  exists n, n <> 3 /\ draw_simplex pts w = (inl (ValueErrorUnpack n), w).
Proof.
  intros Hp Hlen.
  destruct (unpack_each_bad (fun '(x, _, _) => x) pts p Hp Hlen) as (n & Hn & Hx).
  exists n. split; [exact Hn|]. unfold draw_simplex. unfold_monad. by rewrite Hx.
Qed.

Lemma draw_simplex_needs_triples_witness :
  ([PFinite false 1 0; PFinite false 2 0] ∈ [[PFinite false 1 0; PFinite false 2 0]] /\
   length [PFinite false 1 0; PFinite false 2 0] <> 3) /\
  exists n, n <> 3 /\
    draw_simplex [[PFinite false 1 0; PFinite false 2 0]] sample_world
      = (inl (ValueErrorUnpack n), sample_world).
Proof.
  split; [split; [apply list_elem_of_singleton; reflexivity | simpl; lia]|].
  apply (draw_simplex_needs_triples _ [PFinite false 1 0; PFinite false 2 0]).
  - apply list_elem_of_singleton. reflexivity.
  - simpl. lia.
Defined.

(* ------------------------------------------------------------------ *)
(** ** Files the parser reads in full *)

(** One simplex as [read_simplex] needs it: a first line (taken by the
    [f.readline()] of the [while] test), any lines other than 'Simplex',
    the 'Simplex' line, the data lines, and the 'End' line. *)
Definition block_lines (b : string * list string * list string) : list string :=
  let '(h, junk, ds) := b in h :: junk ++ simplex_line :: ds ++ [end_line].

Definition blocks_lines (bs : list (string * list string * list string)) : list string :=
  concat (map block_lines bs).

Lemma is_start_false_of (junk : list string) :
  Forall (fun l => l <> "") junk -> simplex_line ∉ junk ->
  Forall (fun l => is_start l = false) junk.
Proof.
  intros Hne Hs. apply Forall_forall. intros l Hl.
  destruct (is_start l) eqn:E; [|done]. exfalso.
  apply is_start_simplex in E; [subst; done|].
  by apply (proj1 (Forall_forall _ _) Hne).
Qed.

Lemma skip_to_simplex_found (junk rest : list string) (w : world) :
  Forall (fun l => is_start l = false) junk ->
  exists w', skip_to_simplex (junk ++ simplex_line :: rest) w = (inr rest, w').
Proof.
  revert w. induction junk as [|l junk IH]; intros w Hj; simpl; unfold_monad.
  - by eexists.
  - inversion Hj as [|? ? Hl Hj']; subst. rewrite Hl. by apply IH.
Qed.

Lemma read_points_data (ds rest : list string) (ps pts : list (list pyfloat)) (w : world) :
  Forall2 parsed ds ps ->
  exists w', read_points (ds ++ end_line :: rest) pts w = (inr (rest, pts ++ ps), w').
Proof.
  intros Hds. revert pts w.
  induction Hds as [|l p ds ps Hp _ IH]; intros pts w; simpl; unfold_monad.
  - rewrite app_nil_r. by eexists.
  - destruct (parsed_not_sentinel l p Hp) as [_ He].
    destruct (String.eqb l end_line) eqn:E; [by apply String.eqb_eq in E|].
    rewrite Hp. simpl. destruct (IH (pts ++ [p]) (World (fs w) (stdout w ++ [EvPrintNums p])))
      as [w' Hw']. rewrite Hw', <- app_assoc. by eexists.
Qed.

Lemma read_points_bad (ds rest : list string) (l : string) (ps pts : list (list pyfloat))
  (e : exn) (w : world) :
  Forall2 parsed ds ps -> l <> end_line -> floats (split_comma l) = inl e ->
  exists w', read_points (ds ++ l :: rest) pts w = (inl e, w').
Proof.
  intros Hds Hl He. revert pts w.
  induction Hds as [|l' p ds ps Hp _ IH]; intros pts w; simpl; unfold_monad.
  - destruct (String.eqb l end_line) eqn:E; [by apply String.eqb_eq in E|].
    rewrite He. by eexists.
  - destruct (parsed_not_sentinel l' p Hp) as [_ He'].
    destruct (String.eqb l' end_line) eqn:E; [by apply String.eqb_eq in E|].
    rewrite Hp. simpl. apply IH.
Qed.

(** Running [scan] over well-formed blocks reads every data line of them
    and goes on with the rest of the file. *)
Lemma scan_blocks (bs : list (string * list string * list string))
  (pss : list (list (list pyfloat))) (tail : list string) (n : nat)
  (pts : list (list pyfloat)) (w : world) :
  Forall (fun l => l <> "") (blocks_lines bs ++ tail) ->
  Forall (fun b => simplex_line ∉ b.1.2) bs ->
  Forall2 (fun b ps => Forall2 parsed b.2 ps) bs pss ->
  length (blocks_lines bs ++ tail) < n ->
  exists m w', length tail < m /\
    scan n (blocks_lines bs ++ tail) pts w = scan m tail (pts ++ concat pss) w'.
Proof.
  intros Hne Hjunk Hps. revert n pts w Hne Hjunk.
  induction Hps as [|[[h junk] ds] ps bs pss Hp _ IH]; intros n pts w Hne Hjunk Hn.
  - exists n, w. simpl in *. rewrite app_nil_r. done.
  - unfold blocks_lines in *. cbn [map concat] in Hne, Hn |- *.
    rewrite <- !app_assoc in Hne, Hn |- *.
    change (block_lines (h, junk, ds)) with (h :: junk ++ simplex_line :: ds ++ [end_line])
      in Hne, Hn |- *.
    set (X := concat (map block_lines bs) ++ tail) in *.
    assert (Hshape : (h :: junk ++ simplex_line :: ds ++ [end_line]) ++ X
                     = h :: junk ++ simplex_line :: ds ++ end_line :: X).
    { simpl. rewrite <- app_assoc. simpl. rewrite <- app_assoc. reflexivity. }
    rewrite Hshape in Hne, Hn |- *.
    inversion Hjunk as [|? ? Hj Hjunk']; subst. simpl in Hj.
    inversion Hne as [|? ? Hh Hne1]; subst.
    apply Forall_app in Hne1 as [Hnej Hne2].
    inversion Hne2 as [|? ? _ Hne3].
    apply Forall_app in Hne3 as [_ Hne4]. inversion Hne4 as [|? ? _ HX].
    destruct n as [|n]; [lia|]. simpl.
    destruct (String.eqb h "") eqn:E; [by apply String.eqb_eq in E|].
    unfold_monad.
    destruct (skip_to_simplex_found junk (ds ++ end_line :: X) w
                (is_start_false_of junk Hnej Hj)) as [w1 ->].
    destruct (read_points_data ds X ps pts w1 Hp) as [w2 ->]. simpl.
    destruct (IH n (pts ++ ps) w2 HX Hjunk') as (m & w' & Hm & Heq).
    { simpl in Hn. rewrite length_app in Hn. simpl in Hn. rewrite length_app in Hn.
      simpl in Hn. lia. }
    exists m, w'. split; [done|]. by rewrite Heq, <- app_assoc.
Qed.

(* ------------------------------------------------------------------ *)
(** ** What the script prints and plots *)

(** The events [read_simplex] can produce: its two [print] calls. *)
Definition read_event (ev : event) : Prop :=
  match ev with
  | EvPrintBool _ | EvPrintNums _ => True
  | _ => False
  end.

(** The records printed by ['nums are {}'.format(nums)], in order. *)
Fixpoint printed_records (evs : list event) : list (list pyfloat) :=
  match evs with
  | [] => []
  | EvPrintNums n :: evs' => n :: printed_records evs'
  | _ :: evs' => printed_records evs'
  end.

(** The number of [py.iplot] calls in an output log. *)
Fixpoint plot_calls (evs : list event) : nat :=
  match evs with
  | [] => 0
  | EvIPlot _ _ :: evs' => S (plot_calls evs')
  | _ :: evs' => plot_calls evs'
  end.

Lemma printed_records_app (e1 e2 : list event) :
  printed_records (e1 ++ e2) = printed_records e1 ++ printed_records e2.
Proof. induction e1 as [|[] e1 IH]; simpl; f_equal; auto. Qed.

Lemma plot_calls_app (e1 e2 : list event) :
  plot_calls (e1 ++ e2) = plot_calls e1 + plot_calls e2.
Proof. induction e1 as [|[] e1 IH]; simpl; lia. Qed.

Lemma plot_calls_read_events (evs : list event) :
  Forall read_event evs -> plot_calls evs = 0.
Proof. induction 1 as [|[] ? Hx _ IH]; simpl in *; done. Qed.

(** [emits P m]: [m] only appends to the output, and only events in [P]. *)
Definition emits (P : event -> Prop) {A} (m : PyM A) : Prop :=
  forall w, exists evs, stdout (snd (m w)) = stdout w ++ evs /\ Forall P evs.

Lemma emits_ret (P : event -> Prop) {A} (a : A) : emits P (ret a).
Proof. intros w. exists []. rewrite app_nil_r. auto. Qed.

Lemma emits_lift (P : event -> Prop) {A} (r : exn + A) : emits P (lift r).
Proof. intros w. exists []. rewrite app_nil_r. auto. Qed.

Lemma emits_open_read (P : event -> Prop) (path : string) : emits P (open_read path).
Proof.
  intros w. exists []. rewrite app_nil_r. unfold open_read.
  by destruct (fs w !! path).
Qed.

Lemma emits_print (P : event -> Prop) (ev : event) : P ev -> emits P (print ev).
Proof. intros H w. exists [ev]. auto. Qed.

Lemma emits_bind (P : event -> Prop) {A B} (m : PyM A) (k : A -> PyM B) :
  emits P m -> (forall a, emits P (k a)) -> emits P (x ← m; k x).
Proof.
  intros Hm Hk w. unfold_monad. destruct (Hm w) as (e1 & H1 & F1).
  destruct (m w) as [[e|a] w1]; simpl in *; [by exists e1|].
  destruct (Hk a w1) as (e2 & H2 & F2). exists (e1 ++ e2).
  rewrite H2, H1, app_assoc. split; [done|]. by apply Forall_app.
Qed.

Create HintDb emits.

#[local] Hint Resolve emits_ret emits_lift emits_open_read emits_bind : emits.
#[local] Hint Extern 1 (emits _ (print _)) => apply emits_print; exact I : emits.

Lemma emits_skip_to_simplex (f : list string) : emits read_event (skip_to_simplex f).
Proof.
  induction f as [|l f IH]; simpl; auto with emits.
  apply emits_bind; [auto with emits|]. intros _. destruct (is_start l); auto with emits.
Qed.

Lemma emits_read_points (f : list string) (pts : list (list pyfloat)) :
  emits read_event (read_points f pts).
Proof.
  revert pts. induction f as [|l f IH]; intros pts; simpl; auto with emits.
  destruct (String.eqb l end_line); auto 10 with emits.
Qed.

#[local] Hint Resolve emits_skip_to_simplex emits_read_points : emits.

Lemma emits_scan (n : nat) (f : list string) (pts : list (list pyfloat)) :
  emits read_event (scan n f pts).
Proof.
  revert f pts. induction n as [|n IH]; intros f pts; simpl; auto with emits.
  destruct (readline f) as [l f1]. destruct (String.eqb l ""); auto 10 with emits.
Qed.

Lemma skip_to_simplex_prints_no_record (f : list string) (w : world) :
  exists evs, stdout (snd (skip_to_simplex f w)) = stdout w ++ evs /\ printed_records evs = [].
Proof.
  revert w. induction f as [|l f IH]; intros w; simpl; unfold_monad.
  - exists []. by rewrite app_nil_r.
  - destruct (is_start l).
    + by exists [EvPrintBool true].
    + destruct (IH (World (fs w) (stdout w ++ [EvPrintBool false]))) as (evs & H & Hp).
      exists (EvPrintBool false :: evs). simpl in H. rewrite H, <- app_assoc. auto.
Qed.

Lemma read_points_prints_records (f f' : list string) (pts0 pts1 : list (list pyfloat))
  (w w' : world) :
  read_points f pts0 w = (inr (f', pts1), w') ->
  exists evs, stdout w' = stdout w ++ evs /\ pts1 = pts0 ++ printed_records evs.
Proof.
  revert pts0 w. induction f as [|l f IH]; intros pts0 w H; simpl in H; unfold_monad.
  - injection H as _ <- <-. exists []. simpl. by rewrite !app_nil_r.
  - destruct (String.eqb l end_line).
    + injection H as _ <- <-. exists []. simpl. by rewrite !app_nil_r.
    + destruct (floats (split_comma l)) as [e|nums]; [discriminate|].
      simpl in H. destruct (IH _ _ H) as (evs & -> & ->).
      exists (EvPrintNums nums :: evs). simpl. by rewrite <- !app_assoc.
Qed.

Lemma scan_prints_records (n : nat) (f : list string) (pts0 pts : list (list pyfloat))
  (w w' : world) :
  scan n f pts0 w = (inr pts, w') ->
  exists evs, stdout w' = stdout w ++ evs /\ pts = pts0 ++ printed_records evs.
Proof.
  revert f pts0 w. induction n as [|n IH]; intros f pts0 w H; simpl in H.
  - injection H as <- <-. exists []. simpl. by rewrite !app_nil_r.
  - destruct (readline f) as [l f1]. destruct (String.eqb l "").
    { injection H as <- <-. exists []. simpl. by rewrite !app_nil_r. }
    unfold_monad.
    pose proof (skip_to_simplex_prints_no_record f1 w) as (e1 & H1 & P1).
    destruct (skip_to_simplex f1 w) as [[e|f2] w1]; [discriminate|]. simpl in H1.
    destruct (read_points f2 pts0 w1) as [[e|[f3 pts']] w2] eqn:Hr; [discriminate|].
    apply read_points_prints_records in Hr as (e2 & H2 & ->).
    destruct (IH _ _ _ H) as (e3 & H3 & ->).
    exists (e1 ++ e2 ++ e3). rewrite H3, H2, H1, !app_assoc. split; [done|].
    rewrite !printed_records_app, P1. simpl. by rewrite app_assoc.
Qed.

Lemma emits_read_simplex (path : string) : emits read_event (read_simplex path).
Proof. unfold read_simplex. apply emits_bind; [auto with emits|]. intros f. apply emits_scan. Qed.

(** *** Fields and commas *)

Fixpoint count_commas (s : string) : nat :=
  match s with
  | EmptyString => 0
  | String c t => (if Ascii.eqb c "," then 1 else 0) + count_commas t
  end.

Lemma split_comma_aux_length (s : string) :
  length (split_comma_aux s).2 = count_commas s.
Proof.
  induction s as [|c t IH]; simpl; [done|].
  destruct (split_comma_aux t) as [fld rest]. simpl in IH.
  destruct (Ascii.eqb c ","); simpl; lia.
Qed.

Lemma split_comma_length (s : string) : length (split_comma s) = S (count_commas s).
Proof.
  unfold split_comma. pose proof (split_comma_aux_length s) as H.
  destruct (split_comma_aux s) as [fld rest]. simpl in *. lia.
Qed.

Lemma parsed_length (l : string) (p : list pyfloat) :
  parsed l p -> length p = S (count_commas l).
Proof.
  intros H. apply floats_spec, Forall2_length in H. by rewrite <- H, split_comma_length.
Qed.

(* ------------------------------------------------------------------ *)
(** ** Further properties of the script *)

(** X1: without a file 'simplex.txt', [main] raises FileNotFoundError at
    once: nothing is printed and nothing is plotted. *)
Theorem main_missing_file (w : world) :
  fs w !! "simplex.txt" = None ->
  main w = (inl (FileNotFoundError "simplex.txt"), w).
Proof. intros H. unfold main, read_simplex, open_read. unfold_monad. by rewrite H. Qed.

Lemma main_missing_file_witness :
  fs (World ∅ []) !! "simplex.txt" = None /\
  main (World ∅ []) = (inl (FileNotFoundError "simplex.txt"), World ∅ []).
Proof. split; [reflexivity|]. apply main_missing_file. reflexivity. Defined.

(** X3: when [read_simplex] succeeds, the records printed by
    ['nums are {}'] are exactly the records it returns, in order. *)
Theorem read_simplex_prints_each_record (path : string) (w : world)
  (pts : list (list pyfloat)) :
  fst (read_simplex path w) = inr pts ->
  exists evs, stdout (snd (read_simplex path w)) = stdout w ++ evs /\
    printed_records evs = pts.
Proof.
  unfold read_simplex, open_read. unfold_monad.
  destruct (fs w !! path) as [c|]; [|discriminate].
  destruct (scan _ _ [] w) as [r w'] eqn:Hs. simpl. intros ->.
  apply scan_prints_records in Hs as (evs & H1 & H2). by exists evs.
Qed.

Lemma read_simplex_prints_each_record_witness :
  fst (read_simplex "simplex.txt" sample_world) = inr sample_points /\
  exists evs, stdout (snd (read_simplex "simplex.txt" sample_world)) = stdout sample_world ++ evs /\
    printed_records evs = sample_points.
Proof.
  split; [vm_compute; reflexivity|].
  apply read_simplex_prints_each_record. vm_compute. reflexivity.
Defined.

Lemma read_simplex_opened (path : string) (w : world) (c : string) :
  fs w !! path = Some c ->
  read_simplex path w =
    scan (S (length (py_lines (universal_newlines c)))) (py_lines (universal_newlines c)) [] w.
Proof. intros Hc. unfold read_simplex, open_read. unfold_monad. by rewrite Hc. Qed.

(** Sample inputs: two simplices, each after a line of its own. *)
Definition two_blocks : list (string * list string * list string) :=
  [("H" +:+ NL, [], ["1,2,3" +:+ NL]); (NL, [], ["7,8,9" +:+ NL])].

Definition two_blocks_text : string :=
  "H" +:+ NL +:+ "Simplex" +:+ NL +:+ "1,2,3" +:+ NL +:+ "End" +:+ NL +:+
  NL +:+ "Simplex" +:+ NL +:+ "7,8,9" +:+ NL +:+ "End" +:+ NL.

Definition two_blocks_points : list (list (list pyfloat)) :=
  [[[PFinite false 1 0; PFinite false 2 0; PFinite false 3 0]];
   [[PFinite false 7 0; PFinite false 8 0; PFinite false 9 0]]].

(** A simplex whose second data line starts with a field that is not a
    number. *)
Definition bad_line_text : string :=
  "H" +:+ NL +:+ "Simplex" +:+ NL +:+ "1,2,3" +:+ NL +:+ "x,2" +:+ NL +:+ "End" +:+ NL.

(** X4: a file made of simplices, each preceded by a line of its own
    (any text, e.g. an empty line) and possibly more lines that are not
    'Simplex', with data lines that all convert, is read in full: the
    records of all its simplices, in order. *)
Theorem read_simplex_reads_blocks (path : string) (w : world) (c : string)
  (bs : list (string * list string * list string)) (pss : list (list (list pyfloat))) :
  fs w !! path = Some c ->
  py_lines (universal_newlines c) = blocks_lines bs ->
  Forall (fun b => simplex_line ∉ b.1.2) bs ->
  Forall2 (fun b ps => Forall2 parsed b.2 ps) bs pss ->
  fst (read_simplex path w) = inr (concat pss).
Proof.
  intros Hc Hl Hj Hp. rewrite (read_simplex_opened _ _ _ Hc), Hl.
  destruct (scan_blocks bs pss [] (S (length (blocks_lines bs))) [] w) as (m & w' & _ & Heq).
  - rewrite app_nil_r, <- Hl. apply py_lines_nonempty.
  - exact Hj.
  - exact Hp.
  - rewrite app_nil_r. lia.
  - rewrite app_nil_r in Heq. by rewrite Heq, scan_nil.
Qed.

Lemma read_simplex_reads_blocks_witness :
  (fs (file_world "simplex.txt" two_blocks_text) !! "simplex.txt" = Some two_blocks_text /\
   py_lines (universal_newlines two_blocks_text) = blocks_lines two_blocks /\
   Forall (fun b => simplex_line ∉ b.1.2) two_blocks /\
   Forall2 (fun b ps => Forall2 parsed b.2 ps) two_blocks two_blocks_points) /\
  fst (read_simplex "simplex.txt" (file_world "simplex.txt" two_blocks_text))
    = inr (concat two_blocks_points).
Proof.
  assert (Hj : Forall (fun b => simplex_line ∉ b.1.2) two_blocks).
  { repeat constructor; apply not_elem_of_nil. }
  assert (Hp : Forall2 (fun b ps => Forall2 parsed b.2 ps) two_blocks two_blocks_points).
  { unfold two_blocks, two_blocks_points.
    repeat (match goal with |- Forall2 _ _ _ => constructor end; cbv beta; cbn [fst snd]);
      unfold parsed; vm_compute; reflexivity. }
  split; [split; [reflexivity|split; [reflexivity|split; [exact Hj|exact Hp]]]|].
  apply (read_simplex_reads_blocks "simplex.txt" (file_world "simplex.txt" two_blocks_text)
           two_blocks_text two_blocks two_blocks_points);
    [reflexivity|reflexivity|exact Hj|exact Hp].
Defined.

(** X5: in such a file, the first data line with a field that does not
    convert makes [read_simplex] raise that [float()] error. *)
Theorem read_simplex_raises_on_bad_data_line (path : string) (w : world) (c : string)
  (bs : list (string * list string * list string)) (pss : list (list (list pyfloat)))
  (h : string) (junk ds : list string) (ps : list (list pyfloat)) (l : string)
  (rest : list string) (e : exn) :
  fs w !! path = Some c ->
  py_lines (universal_newlines c) =
    blocks_lines bs ++ h :: junk ++ simplex_line :: ds ++ l :: rest ->
  Forall (fun b => simplex_line ∉ b.1.2) bs ->
  Forall2 (fun b ps => Forall2 parsed b.2 ps) bs pss ->
  simplex_line ∉ junk -> Forall2 parsed ds ps ->
  l <> end_line -> floats (split_comma l) = inl e ->
  fst (read_simplex path w) = inl e.
Proof.
  intros Hc Hl Hj Hp Hjunk Hds Hend He.
  rewrite (read_simplex_opened _ _ _ Hc), Hl.
  pose proof (py_lines_nonempty (universal_newlines c)) as Hne. rewrite Hl in Hne.
  destruct (scan_blocks bs pss (h :: junk ++ simplex_line :: ds ++ l :: rest)
              (S (length (blocks_lines bs ++ h :: junk ++ simplex_line :: ds ++ l :: rest)))
              [] w Hne Hj Hp ltac:(lia)) as (m & w' & Hm & ->).
  apply Forall_app in Hne as [_ Hne]. inversion Hne as [|? ? Hh Hne1]; subst.
  apply Forall_app in Hne1 as [Hnej _].
  destruct m as [|m]; [simpl in Hm; lia|]. simpl.
  destruct (String.eqb h "") eqn:E; [by apply String.eqb_eq in E|]. unfold_monad.
  destruct (skip_to_simplex_found junk (ds ++ l :: rest) w'
              (is_start_false_of junk Hnej Hjunk)) as [w1 ->].
  destruct (read_points_bad ds rest l ps (concat pss) e w1 Hds Hend He) as [w2 ->].
  done.
Qed.

Lemma read_simplex_raises_on_bad_data_line_witness :
  fst (read_simplex "simplex.txt" (file_world "simplex.txt" bad_line_text))
    = inl (ValueErrorFloat "x").
Proof.
  apply (read_simplex_raises_on_bad_data_line "simplex.txt"
           (file_world "simplex.txt" bad_line_text) bad_line_text [] [] ("H" +:+ NL) []
           ["1,2,3" +:+ NL] [[PFinite false 1 0; PFinite false 2 0; PFinite false 3 0]]
           ("x,2" +:+ NL) [end_line]).
  - vm_compute. reflexivity.
  - vm_compute. reflexivity.
  - constructor.
  - constructor.
  - apply not_elem_of_nil.
  - repeat constructor.
  - discriminate.
  - vm_compute. reflexivity.
Defined.

(** X7: [main] calls [py.iplot] at most once: exactly once when
    [read_simplex] returns records that all have three components, and
    not at all when reading raises or a record has another length. *)
Theorem main_plot_calls (w : world) :
  exists evs, stdout (snd (main w)) = stdout w ++ evs /\
    plot_calls evs =
      match fst (read_simplex "simplex.txt" w) with
      | inr pts => if bool_decide (Forall (fun p => length p = 3) pts) then 1 else 0
      | inl _ => 0
      end.
Proof.
  unfold main. unfold_monad.
  destruct (emits_read_simplex "simplex.txt" w) as (e1 & H1 & F1).
  destruct (read_simplex "simplex.txt" w) as [[e|pts] w1]; simpl in *.
  - exists e1. split; [done|]. by apply plot_calls_read_events.
  - set (w2 := World (fs w1) (stdout w1 ++ [EvPrintPoints pts])).
    destruct (decide (Forall (fun p => length p = 3) pts)) as [H3|H3].
    + rewrite bool_decide_true by done.
      destruct (draw_simplex_triples pts w2 H3) as (xs & ys & zs & _ & _ & _ & ->).
      exists (e1 ++ [EvPrintPoints pts; EvPrintXYZ xs ys zs;
                     EvIPlot [Heatmap xs ys zs] "basic-heatmap"]). split.
      * simpl. rewrite H1, <- !app_assoc. done.
      * rewrite plot_calls_app, plot_calls_read_events by done. done.
    + rewrite bool_decide_false by done.
      destruct (draw_simplex_not_triples pts w2 H3) as (p & n & _ & _ & _ & ->).
      exists (e1 ++ [EvPrintPoints pts]). split.
      * simpl. rewrite H1, <- !app_assoc. done.
      * rewrite plot_calls_app, plot_calls_read_events by done. done.
Qed.

(** X8: each record returned by [read_simplex] is the parse of a line of
    the file (the lines taken in file order) and has one component more
    than that line has commas. *)
Theorem read_simplex_record_lengths (path : string) (w : world) (c : string)
  (pts : list (list pyfloat)) :
  fs w !! path = Some c ->
  fst (read_simplex path w) = inr pts ->
  exists sel, sel `sublist_of` py_lines (universal_newlines c) /\
    Forall2 (fun l p => parsed l p /\ length p = S (count_commas l)) sel pts.
Proof.
  intros Hc H. destruct (read_simplex_good _ _ _ _ Hc H) as [(sel & Hs & Hp) _].
  exists sel. split; [done|]. eapply Forall2_impl; [exact Hp|].
  intros l p Hl. split; [exact Hl|]. by apply parsed_length.
Qed.

Lemma read_simplex_record_lengths_witness :
  (fs sample_world !! "simplex.txt" = Some sample_text /\
   fst (read_simplex "simplex.txt" sample_world) = inr sample_points) /\
  exists sel, sel `sublist_of` py_lines (universal_newlines sample_text) /\
    Forall2 (fun l p => parsed l p /\ length p = S (count_commas l)) sel sample_points.
Proof.
  split; [split; vm_compute; reflexivity|].
  apply (read_simplex_record_lengths "simplex.txt" sample_world sample_text);
    vm_compute; reflexivity.
Defined.

End DrawSimplex.
